(** * apex::pthread_wrapper — a timed, cancellable worker thread

    Shallow embedding of [src/apex/pthread_wrapper.hpp] (the POSIX branch,
    i.e. neither [APEX_LXK_KITTEN] nor [__APPLE__] is defined).

    The object's fields are a record.  Everything the class asks of the
    operating system (the clock, the join, the timed wait) and everything
    another thread may do behind its back (the worker storing to
    [_running]) is an explicit environment value handed to the method, and
    every externally visible action of a method is logged, in program
    order, as an event.  Methods therefore are total functions
    [environment -> object -> result * object * list event]. *)

From Stdlib Require Import ZArith List Bool Lia.
Import ListNotations.
Local Open Scope Z_scope.

(** ** Machine integers *)

Module CInt.

(** Two's-complement reduction of [z] to a signed integer of [bits] bits. *)
Definition wrap_signed (bits z : Z) : Z :=
  (z + 2 ^ (bits - 1)) mod 2 ^ bits - 2 ^ (bits - 1).

Definition INT_MIN : Z := -2147483648.
Definition INT_MAX : Z := 2147483647.
Definition UINT_MAX : Z := 4294967295.
Definition LONG_MIN : Z := -9223372036854775808.
Definition LONG_MAX : Z := 9223372036854775807.

(** [int] is 32 bits wide; [long], and with it [time_t], [suseconds_t]
    and the [tv_nsec] field, is 64 bits wide (LP64, the only data model
    on which this branch of the header is compiled in practice). *)
Definition to_int : Z -> Z := wrap_signed 32.
Definition to_long : Z -> Z := wrap_signed 64.

Definition is_int (z : Z) : Prop := INT_MIN <= z <= INT_MAX.
Definition is_uint (z : Z) : Prop := 0 <= z <= UINT_MAX.
Definition is_long (z : Z) : Prop := LONG_MIN <= z <= LONG_MAX.

End CInt.
Import CInt.

(** ** Constants *)

(** [#define MILLION 1000000] *)
Definition MILLION : Z := 1000000.

(** Error numbers of [<errno.h>] as Linux defines them.  The code only
    compares them with each other. *)
Module Errno.
Definition EPERM : Z := 1.
Definition ESRCH : Z := 3.
Definition EINVAL : Z := 22.
Definition EDEADLK : Z := 35.
Definition ETIMEDOUT : Z := 110.
End Errno.
Import Errno.

(** ** Time structures of [<sys/time.h>] *)

Module Timeval.
Record t : Set := mk { tv_sec : Z; tv_usec : Z }.
End Timeval.

Module Timespec.
Record t : Set := mk { tv_sec : Z; tv_nsec : Z }.

(** A [timespec] is well formed when its nanoseconds lie in [0, 10^9). *)
Definition valid_nsec (a : t) : Prop := 0 <= tv_nsec a < 1000000000.
End Timespec.

Definition timeval : Set := Timeval.t.
Definition timespec : Set := Timespec.t.

(** ** The mutex

    [_my_mutex] is initialised with [PTHREAD_MUTEX_ERRORCHECK].  Only
    [wait] ever locks it, so the model records whether the thread that
    calls [wait] holds it. *)

Inductive mutex : Set := Unlocked | Held.

(** Locking an error-checking mutex the caller already holds does not
    block: it fails with [EDEADLK] and leaves the mutex held. *)
Definition pthread_mutex_lock (m : mutex) : Z * mutex :=
  match m with
  | Unlocked => (0, Held)
  | Held => (EDEADLK, Held)
  end.

(** Unlocking an error-checking mutex the caller does not hold fails with
    [EPERM]. *)
Definition pthread_mutex_unlock (m : mutex) : Z * mutex :=
  match m with
  | Held => (0, Unlocked)
  | Unlocked => (EPERM, Unlocked)
  end.

(** ** Events *)

Inductive event : Set :=
| EvDoneStore (b : bool)            (* done = b *)
| EvDoneLoad (b : bool)             (* a read of done that saw b *)
| EvRunningLoad (b : bool)          (* a read of _running that saw b *)
| EvAttachedLoad (b : bool)         (* a read of _attached that saw b *)
| EvCondSignal                      (* pthread_cond_signal(&_my_cond) *)
| EvJoin (ret : Z)                  (* pthread_join(worker_thread, _) = ret *)
| EvPerror (errno : Z)              (* errno = _; perror(_) *)
| EvGettimeofday (tp : timeval)     (* gettimeofday(&tp, nullptr) *)
| EvMutexLock (rc : Z)              (* pthread_mutex_lock(&_my_mutex) = rc *)
| EvCondTimedwait (ts : timespec) (rc : Z)
                                    (* pthread_cond_timedwait(.., &ts) = rc *)
| EvMutexUnlock (rc : Z)            (* pthread_mutex_unlock(&_my_mutex) = rc *)
| EvCondDestroy                     (* pthread_cond_destroy(&_my_cond) *)
| EvMutexDestroy.                   (* pthread_mutex_destroy(&_my_mutex) *)

Definition is_join (ev : event) : bool :=
  match ev with EvJoin _ => true | _ => false end.
Definition is_perror (ev : event) : bool :=
  match ev with EvPerror _ => true | _ => false end.
Definition is_signal (ev : event) : bool :=
  match ev with EvCondSignal => true | _ => false end.
Definition is_done_store (ev : event) : bool :=
  match ev with EvDoneStore _ => true | _ => false end.
Definition is_running_load (ev : event) : bool :=
  match ev with EvRunningLoad _ => true | _ => false end.
Definition is_gettimeofday (ev : event) : bool :=
  match ev with EvGettimeofday _ => true | _ => false end.
Definition is_lock (ev : event) : bool :=
  match ev with EvMutexLock _ => true | _ => false end.
Definition is_unlock (ev : event) : bool :=
  match ev with EvMutexUnlock _ => true | _ => false end.
Definition is_timedwait (ev : event) : bool :=
  match ev with EvCondTimedwait _ _ => true | _ => false end.

(** The deadline handed to the first timed wait of a trace, if any. *)
Fixpoint timedwait_deadline (tr : list event) : option timespec :=
  match tr with
  | [] => None
  | EvCondTimedwait ts _ :: _ => Some ts
  | _ :: tr' => timedwait_deadline tr'
  end.

(** The last event of a trace, if any. *)
Fixpoint last_event (tr : list event) : option event :=
  match tr with
  | [] => None
  | [ev] => Some ev
  | _ :: tr' => last_event tr'
  end.

(** ** The object *)

Record pthread_wrapper : Set := mk_pthread_wrapper {
  done : bool;                      (* std::atomic<bool> done *)
  _my_mutex : mutex;                (* pthread_mutex_t _my_mutex *)
  _context_object : Z;              (* void* _context_object, as an address *)
  _timeout_microseconds : Z;        (* unsigned int _timeout_microseconds *)
  _attached : bool                  (* std::atomic<bool> _attached *)
}.
(** [_running] is not a field of the record: the class initialises it to
    [false] and never stores to it again; its later values are the
    worker's doing and reach the methods through their environment.
    [worker_thread], [_my_cond] and [_func] carry no state the methods
    inspect. *)

Definition with_done (b : bool) (w : pthread_wrapper) : pthread_wrapper :=
  mk_pthread_wrapper b (_my_mutex w) (_context_object w)
                     (_timeout_microseconds w) (_attached w).

Definition with_mutex (m : mutex) (w : pthread_wrapper) : pthread_wrapper :=
  mk_pthread_wrapper (done w) m (_context_object w)
                     (_timeout_microseconds w) (_attached w).

(** [void set_timeout(unsigned int timeout_microseconds)] *)
Definition set_timeout (timeout_microseconds : Z) (w : pthread_wrapper)
  : pthread_wrapper :=
  mk_pthread_wrapper (done w) (_my_mutex w) (_context_object w)
                     timeout_microseconds (_attached w).

(** [void* get_context(void)] *)
Definition get_context (w : pthread_wrapper) : Z := _context_object w.

(** ** Construction

    The four library calls of the constructor report through their return
    codes, which the environment supplies.  [None] is [exit(1)]. *)

Record ctor_env : Set := {
  mutex_init_rc : Z;                (* pthread_mutex_init *)
  cond_init_rc : Z;                 (* pthread_cond_init *)
  create_ret : Z;                   (* pthread_create *)
  detach_ret : Z                    (* pthread_detach *)
}.

Definition construct (e : ctor_env) (context timeout_microseconds : Z)
  : option pthread_wrapper * list event :=
  let w := mk_pthread_wrapper false Unlocked context timeout_microseconds true in
  if negb (mutex_init_rc e =? 0) then (None, [EvPerror (mutex_init_rc e)])
  else if negb (cond_init_rc e =? 0) then (None, [EvPerror (cond_init_rc e)])
  else if negb (create_ret e =? 0) then (None, [EvPerror (create_ret e)])
  else if negb (detach_ret e =? 0) then (Some w, [EvPerror (detach_ret e)])
  else (Some (mk_pthread_wrapper false Unlocked context timeout_microseconds
                                 false), []).

(** ** [wait] *)

(** What [wait] asks of the system: the clock reading of [gettimeofday]
    and the return code of [pthread_cond_timedwait]. *)
Record wait_env : Set := {
  now : timeval;
  timedwait_rc : Z
}.

(** Lines 146-156: the absolute deadline.  [seconds], [microseconds] and
    [tmp] are [int]; [tp.tv_usec + microseconds] and
    [tp.tv_sec + seconds] are computed in [long]; [1000 * tmp] is computed
    in [int] and widened. *)
Definition deadline (tp : timeval) (timeout_microseconds : Z) : timespec :=
  let seconds := to_int (timeout_microseconds / MILLION) in
  let microseconds := to_int (timeout_microseconds mod MILLION) in
  let tmp := to_int (to_long (Timeval.tv_usec tp + microseconds)) in
  let carry := tmp >? MILLION in
  let tmp := if carry then to_int (tmp - MILLION) else tmp in
  let seconds := if carry then to_int (seconds + 1) else seconds in
  Timespec.mk (to_long (Timeval.tv_sec tp + seconds))
              (to_long (to_int (1000 * tmp))).

(** Where a call of [wait] stands once it can go no further on its own:
    it has returned at line 128, or it sits in [pthread_cond_timedwait]
    with the deadline it computed. *)
Inductive wait_point : Set :=
| Returned_early (r : bool)
| In_timedwait (ts : timespec).

(** Lines 128-157: from entry up to the timed wait. *)
Definition wait_enter (tp : timeval) (w : pthread_wrapper)
  : wait_point * pthread_wrapper * list event :=
  if done w then (Returned_early false, w, [EvDoneLoad true])
  else
    let ts := deadline tp (_timeout_microseconds w) in
    let '(lrc, m) := pthread_mutex_lock (_my_mutex w) in
    (In_timedwait ts, with_mutex m w,
     [EvDoneLoad false; EvGettimeofday tp; EvMutexLock lrc]).

(** Lines 158-168: the timed wait comes back with [rc].  The wait gives
    the mutex up while it blocks and takes it back before it returns, so
    the mutex is afterwards as it was before. *)
Definition wait_resume (ts : timespec) (rc : Z) (w : pthread_wrapper)
  : bool * pthread_wrapper * list event :=
  if rc =? ETIMEDOUT then (true, w, [EvCondTimedwait ts rc])
  else if rc =? EINVAL then
    let '(urc, m) := pthread_mutex_unlock (_my_mutex w) in
    (false, with_mutex m w, [EvCondTimedwait ts rc; EvMutexUnlock urc])
  else if rc =? EPERM then (false, w, [EvCondTimedwait ts rc])
  else (true, w, [EvCondTimedwait ts rc]).

(** A call of [wait] during whose timed wait the owner thread changes the
    object by [owner]. *)
Definition wait_during (e : wait_env)
    (owner : pthread_wrapper -> pthread_wrapper) (w : pthread_wrapper)
  : bool * pthread_wrapper * list event :=
  match wait_enter (now e) w with
  | (Returned_early r, w1, tr) => (r, w1, tr)
  | (In_timedwait ts, w1, tr1) =>
      let '(r, w2, tr2) := wait_resume ts (timedwait_rc e) (owner w1) in
      (r, w2, tr1 ++ tr2)
  end.

(** [bool wait()], undisturbed. *)
Definition wait (e : wait_env) (w : pthread_wrapper)
  : bool * pthread_wrapper * list event :=
  wait_during e (fun w1 => w1) w.

(** ** [stop_thread] and the destructor *)

(** What [stop_thread] meets: [running_loads k] is the value the [k]-th
    read of [_running] in this call observes (the worker stores to the
    flag as it pleases), [join_ret] the return code of [pthread_join]. *)
Record stop_env : Set := {
  running_loads : nat -> bool;
  join_ret : Z
}.

(** A call either returned, or is still spinning in its last loop when the
    fuel is spent. *)
Inductive completion : Set := Returned | Spinning.

(** Line 118: [while (_running.load()) {}], reading from the [i]-th load
    on, for at most [fuel] reads. *)
Fixpoint poll_running (fuel : nat) (loads : nat -> bool) (i : nat)
  : completion * list event :=
  match fuel with
  | O => (Spinning, [])
  | S fuel' =>
      if loads i then
        let '(c, tr) := poll_running fuel' loads (S i) in
        (c, EvRunningLoad true :: tr)
      else (Returned, [EvRunningLoad false])
  end.

(** [void stop_thread(void)].  [_running && _attached] reads [_attached]
    only when [_running] was seen true. *)
Definition stop_thread (fuel : nat) (e : stop_env) (w : pthread_wrapper)
  : completion * pthread_wrapper * list event :=
  let w := with_done true w in
  let r := running_loads e 0%nat in
  let head := [EvDoneStore true; EvCondSignal; EvRunningLoad r]
              ++ (if r then [EvAttachedLoad (_attached w)] else []) in
  if r && _attached w then
    let ret := join_ret e in
    if negb (ret =? 0) then
      if ret =? ESRCH then (Returned, w, head ++ [EvJoin ret])
      else if ret =? EINVAL then (Returned, w, head ++ [EvJoin ret])
      else if ret =? EDEADLK then (Returned, w, head ++ [EvJoin ret])
      else (Returned, w, head ++ [EvJoin ret; EvPerror ret])
    else
      let '(c, tr) := poll_running fuel (running_loads e) 1%nat in
      (c, w, head ++ [EvJoin ret] ++ tr)
  else
    let '(c, tr) := poll_running fuel (running_loads e) 1%nat in
    (c, w, head ++ tr).

(** [~pthread_wrapper(void)]: the primitives are destroyed once
    [stop_thread] has returned. *)
Definition destroy (fuel : nat) (e : stop_env) (w : pthread_wrapper)
  : completion * pthread_wrapper * list event :=
  match stop_thread fuel e w with
  | (Returned, w', tr) => (Returned, w', tr ++ [EvCondDestroy; EvMutexDestroy])
  | (Spinning, w', tr) => (Spinning, w', tr)
  end.

(** The three components of what a method call yields. *)
Definition result {A : Type} (x : A * pthread_wrapper * list event) : A :=
  fst (fst x).
Definition object_after {A : Type} (x : A * pthread_wrapper * list event)
  : pthread_wrapper := snd (fst x).
Definition trace {A : Type} (x : A * pthread_wrapper * list event)
  : list event := snd x.

(** Sample inputs: an object as the constructor leaves it when the detach
    succeeded, one whose detach failed, and a clock reading. *)
Definition detached_object (timeout_microseconds : Z) : pthread_wrapper :=
  mk_pthread_wrapper false Unlocked 0 timeout_microseconds false.
Definition attached_object (timeout_microseconds : Z) : pthread_wrapper :=
  mk_pthread_wrapper false Unlocked 0 timeout_microseconds true.
Definition at_time (S U rc : Z) : wait_env :=
  Build_wait_env (Timeval.mk S U) rc.

(** A worker whose [_running] is seen set at every read, and one whose
    [_running] is seen clear from the [n]-th read on; [join_ret] is what
    [pthread_join] answers. *)
Definition never_stops (join_ret : Z) : stop_env :=
  Build_stop_env (fun _ => true) join_ret.
Definition stops_at (n : nat) (join_ret : Z) : stop_env :=
  Build_stop_env (fun k => Nat.ltb k n) join_ret.

(** ** [wait] on Kitten

    Lines 128-140 and 168: the body of [wait] when [APEX_LXK_KITTEN] is
    defined.  It sleeps for the timeout instead of waiting on the
    condition variable and touches neither the clock nor the mutex.  The
    second component is the interval handed to [nanosleep], if the call
    got that far; [nanosleep_rc] is what [nanosleep] answers. *)
Definition wait_kitten (nanosleep_rc : Z) (w : pthread_wrapper)
  : bool * option timespec :=
  if done w then (false, None)
  else
    let seconds := to_int (_timeout_microseconds w / MILLION) in
    let microseconds := to_int (_timeout_microseconds w mod MILLION) in
    let ts := Timespec.mk (to_long seconds)
                          (to_long (to_int (1000 * microseconds))) in
    if negb (nanosleep_rc =? 0) then (false, Some ts) else (true, Some ts).

(** ** Histories of calls

    One call of a method on the object, by whichever thread, and a
    sequence of such calls one after the other, each on the object the one
    before left behind; the traces are concatenated. *)
Inductive call : Set :=
| CallSetTimeout (timeout_microseconds : Z)
| CallWait (e : wait_env)
| CallStopThread (fuel : nat) (e : stop_env).

Definition do_call (c : call) (w : pthread_wrapper)
  : pthread_wrapper * list event :=
  match c with
  | CallSetTimeout T => (set_timeout T w, [])
  | CallWait e => (object_after (wait e w), trace (wait e w))
  | CallStopThread fuel e =>
      (object_after (stop_thread fuel e w), trace (stop_thread fuel e w))
  end.

Fixpoint do_calls (cs : list call) (w : pthread_wrapper)
  : pthread_wrapper * list event :=
  match cs with
  | [] => (w, [])
  | c :: cs' =>
      let '(w1, tr1) := do_call c w in
      let '(w2, tr2) := do_calls cs' w1 in
      (w2, tr1 ++ tr2)
  end.

(** The timeout the last [set_timeout] of a history stored, [T0] if there
    was none. *)
Fixpoint last_timeout (cs : list call) (T0 : Z) : Z :=
  match cs with
  | [] => T0
  | CallSetTimeout T :: cs' => last_timeout cs' T
  | _ :: cs' => last_timeout cs' T0
  end.

Definition is_destroy (ev : event) : bool :=
  match ev with EvCondDestroy | EvMutexDestroy => true | _ => false end.

(** ** [wait] racing with the owner thread

    [_timeout_microseconds] is a plain field, and [wait] reads it twice:
    at line 146 for the whole seconds and at line 147 for the remainder.
    The owner thread may store to it at any point of the call. *)

(** Lines 146-156 with the two reads kept apart: [read1] is the value
    line 146 read, [read2] the value line 147 read. *)
Definition deadline_of_reads (tp : timeval) (read1 read2 : Z) : timespec :=
  let seconds := to_int (read1 / MILLION) in
  let microseconds := to_int (read2 mod MILLION) in
  let tmp := to_int (to_long (Timeval.tv_usec tp + microseconds)) in
  let carry := tmp >? MILLION in
  let tmp := if carry then to_int (tmp - MILLION) else tmp in
  let seconds := if carry then to_int (seconds + 1) else seconds in
  Timespec.mk (to_long (Timeval.tv_sec tp + seconds))
              (to_long (to_int (1000 * tmp))).

(** The points of a call of [wait], past the test of [done], at which
    the owner thread can get in. *)
Inductive race_point : Set :=
| BeforeReads     (* after line 128, before the read of line 146 *)
| BetweenReads    (* between the reads of lines 146 and 147 *)
| AfterReads      (* after line 147, before the lock of line 157 *)
| WhileBlocked.   (* during the timed wait of line 158 *)

(** What the owner thread does to the object at each of these points. *)
Record owner_schedule : Type := {
  before_reads : pthread_wrapper -> pthread_wrapper;
  between_reads : pthread_wrapper -> pthread_wrapper;
  after_reads : pthread_wrapper -> pthread_wrapper;
  while_blocked : pthread_wrapper -> pthread_wrapper
}.

(** The owner does nothing. *)
Definition idle : owner_schedule :=
  Build_owner_schedule (fun w => w) (fun w => w) (fun w => w) (fun w => w).

(** The owner calls [set_timeout T'] at the point [p], and does nothing
    else. *)
Definition set_timeout_at (p : race_point) (T' : Z) : owner_schedule :=
  match p with
  | BeforeReads =>
      Build_owner_schedule (set_timeout T') (fun w => w) (fun w => w)
                           (fun w => w)
  | BetweenReads =>
      Build_owner_schedule (fun w => w) (set_timeout T') (fun w => w)
                           (fun w => w)
  | AfterReads =>
      Build_owner_schedule (fun w => w) (fun w => w) (set_timeout T')
                           (fun w => w)
  | WhileBlocked =>
      Build_owner_schedule (fun w => w) (fun w => w) (fun w => w)
                           (set_timeout T')
  end.

(** [bool wait()], lines 128-168, statement by statement, with the owner
    acting according to [o]. *)
Definition wait_racing (e : wait_env) (o : owner_schedule)
    (w : pthread_wrapper) : bool * pthread_wrapper * list event :=
  if done w then (false, w, [EvDoneLoad true])
  else
    let tp := now e in
    let w := before_reads o w in
    let read1 := _timeout_microseconds w in
    let w := between_reads o w in
    let read2 := _timeout_microseconds w in
    let ts := deadline_of_reads tp read1 read2 in
    let w := after_reads o w in
    let '(lrc, m) := pthread_mutex_lock (_my_mutex w) in
    let w := while_blocked o (with_mutex m w) in
    let '(r, w, tr) := wait_resume ts (timedwait_rc e) w in
    (r, w, [EvDoneLoad false; EvGettimeofday tp; EvMutexLock lrc] ++ tr).

(** ** Facts about machine integers *)

Lemma to_int_small z : is_int z -> to_int z = z.
Proof.
  unfold is_int, INT_MIN, INT_MAX, to_int, wrap_signed; intros H.
  change (2 ^ (32 - 1)) with 2147483648.
  change (2 ^ 32) with 4294967296.
  rewrite Z.mod_small by lia. lia.
Qed.

Lemma to_long_small z : is_long z -> to_long z = z.
Proof.
  unfold is_long, LONG_MIN, LONG_MAX, to_long, wrap_signed; intros H.
  change (2 ^ (64 - 1)) with 9223372036854775808.
  change (2 ^ 64) with 18446744073709551616.
  rewrite Z.mod_small by lia. lia.
Qed.

(** Closes a goal that only asks for a value to lie in the range of its
    type. *)
Ltac in_range :=
  unfold is_int, is_uint, is_long, INT_MIN, INT_MAX, UINT_MAX, LONG_MIN,
    LONG_MAX, MILLION in *; lia.

(** Case analysis on every test the goal branches on. *)
Ltac case_ifs :=
  repeat match goal with
         | |- context [if ?c then _ else _] => destruct c
         end.

Lemma timeout_split T :
  is_uint T -> 0 <= T / MILLION <= 4294 /\ 0 <= T mod MILLION < MILLION.
Proof.
  unfold is_uint, UINT_MAX, MILLION; intros H; split.
  - split; [apply Z.div_pos; lia|].
    apply Z.lt_succ_r, Z.div_lt_upper_bound; lia.
  - apply Z.mod_pos_bound; lia.
Qed.

(** ** The deadline in closed form *)

(** Within the ranges of the types no conversion in [deadline] changes a
    value, and the deadline is the mathematical one. *)
Lemma deadline_closed_form S U T :
  is_uint T -> 0 <= U <= MILLION -> is_long S ->
  S + T / MILLION + 1 <= LONG_MAX ->
  deadline (Timeval.mk S U) T =
    if U + T mod MILLION >? MILLION
    then Timespec.mk (S + T / MILLION + 1)
                     (1000 * (U + T mod MILLION - MILLION))
    else Timespec.mk (S + T / MILLION) (1000 * (U + T mod MILLION)).
Proof.
  intros HT HU HS Hfit.
  destruct (timeout_split T HT) as [Hq Hr].
  unfold deadline; cbn [Timeval.tv_sec Timeval.tv_usec].
  set (q := T / MILLION) in *. set (r := T mod MILLION) in *.
  clearbody q r.
  rewrite (to_int_small q), (to_int_small r) by in_range.
  rewrite (to_long_small (U + r)), (to_int_small (U + r)) by in_range.
  destruct (Z.gtb_spec (U + r) MILLION) as [Hc|Hc].
  - rewrite (to_int_small (U + r - MILLION)) by in_range.
    rewrite (to_int_small (q + 1)) by in_range.
    rewrite (to_int_small (1000 * _)) by in_range.
    rewrite !to_long_small by in_range.
    f_equal; lia.
  - rewrite (to_int_small (1000 * _)) by in_range.
    rewrite !to_long_small by in_range.
    reflexivity.
Qed.

(** ** [wait], path by path *)

(** A call that finds [done] clear gets as far as the timed wait. *)
Lemma wait_enter_not_done tp w :
  done w = false ->
  wait_enter tp w =
    (In_timedwait (deadline tp (_timeout_microseconds w)),
     with_mutex Held w,
     [EvDoneLoad false; EvGettimeofday tp;
      EvMutexLock (fst (pthread_mutex_lock (_my_mutex w)))]).
Proof.
  intros Hd. unfold wait_enter. rewrite Hd.
  destruct (_my_mutex w); reflexivity.
Qed.

Lemma wait_during_not_done e owner w :
  done w = false ->
  wait_during e owner w =
    let ts := deadline (now e) (_timeout_microseconds w) in
    let '(r, w2, tr2) :=
      wait_resume ts (timedwait_rc e) (owner (with_mutex Held w)) in
    (r, w2,
     [EvDoneLoad false; EvGettimeofday (now e);
      EvMutexLock (fst (pthread_mutex_lock (_my_mutex w)))] ++ tr2).
Proof.
  intros Hd. unfold wait_during. rewrite (wait_enter_not_done _ _ Hd).
  reflexivity.
Qed.

(** ** The sample objects are what the constructor builds *)

Example construct_detached T :
  construct (Build_ctor_env 0 0 0 0) 0 T = (Some (detached_object T), []).
Proof. reflexivity. Qed.

Example construct_detach_failed T :
  construct (Build_ctor_env 0 0 0 EINVAL) 0 T =
    (Some (attached_object T), [EvPerror EINVAL]).
Proof. reflexivity. Qed.

(** ** The deadline of [wait] *)

(** C2: with the clock at (S, U), 0 <= U < 1000000, and a timeout T, the
    deadline [wait] hands to the timed wait is built from T / 1000000 and
    T mod 1000000; when U plus the remainder exceeds one million it is
    (S + T / 1000000 + 1, 1000 * (U + T mod 1000000 - 1000000)), and
    otherwise (S + T / 1000000, 1000 * (U + T mod 1000000)). *)
Theorem wait_deadline_carry (e : wait_env) (w : pthread_wrapper) (S U T : Z) :
  done w = false ->
  now e = Timeval.mk S U ->
  _timeout_microseconds w = T ->
  is_uint T -> 0 <= U < MILLION ->
  is_long S -> S + T / MILLION + 1 <= LONG_MAX ->
  timedwait_deadline (trace (wait e w)) =
    Some (if U + T mod MILLION >? MILLION
          then Timespec.mk (S + T / MILLION + 1)
                           (1000 * (U + T mod MILLION - MILLION))
          else Timespec.mk (S + T / MILLION) (1000 * (U + T mod MILLION))).
Proof.
  intros Hd Hnow HT HuT HU HS Hfit.
  unfold wait. rewrite (wait_during_not_done _ _ _ Hd).
  rewrite Hnow, HT. cbv zeta.
  rewrite (deadline_closed_form S U T) by (assumption || lia).
  unfold wait_resume.
  case_ifs;
    try destruct (pthread_mutex_unlock _); reflexivity.
Qed.

(** The example of C2: now = (S, 900000) and a timeout of 300000 give the
    deadline (S + 1, 200000 * 1000). *)
Lemma wait_deadline_carry_witness :
  timedwait_deadline
    (trace (wait (at_time 1700000000 900000 ETIMEDOUT)
                 (detached_object 300000))) =
  Some (Timespec.mk 1700000001 (200000 * 1000)).
Proof.
  apply (wait_deadline_carry (at_time 1700000000 900000 ETIMEDOUT)
           (detached_object 300000) 1700000000 900000 300000);
    try reflexivity; vm_compute; intuition discriminate.
Defined.

(** C10: when U plus the timeout's remainder is exactly one million the
    strict test [tmp > MILLION] fails, no second is carried, and the
    deadline's [tv_nsec] is 1000000000, which is not below 10^9. *)
Theorem wait_deadline_exact_million
    (e : wait_env) (w : pthread_wrapper) (S U T : Z) :
  done w = false ->
  now e = Timeval.mk S U ->
  _timeout_microseconds w = T ->
  is_uint T -> is_long S -> S + T / MILLION + 1 <= LONG_MAX ->
  U + T mod MILLION = MILLION ->
  timedwait_deadline (trace (wait e w)) =
    Some (Timespec.mk (S + T / MILLION) 1000000000)
  /\ ~ Timespec.valid_nsec (Timespec.mk (S + T / MILLION) 1000000000).
Proof.
  intros Hd Hnow HT HuT HS Hfit Hsum.
  destruct (timeout_split T HuT) as [_ Hr].
  split.
  - unfold wait. rewrite (wait_during_not_done _ _ _ Hd).
    rewrite Hnow, HT. cbv zeta.
    rewrite (deadline_closed_form S U T) by (assumption || lia).
    rewrite Hsum, Z.gtb_ltb, Z.ltb_irrefl.
    unfold wait_resume.
    case_ifs;
      try destruct (pthread_mutex_unlock _); reflexivity.
  - unfold Timespec.valid_nsec; cbn. lia.
Qed.

Lemma wait_deadline_exact_million_witness :
  timedwait_deadline
    (trace (wait (at_time 1700000000 700000 0) (detached_object 2300000))) =
    Some (Timespec.mk 1700000002 1000000000)
  /\ ~ Timespec.valid_nsec (Timespec.mk 1700000002 1000000000).
Proof.
  apply (wait_deadline_exact_million (at_time 1700000000 700000 0)
           (detached_object 2300000) 1700000000 700000 2300000);
    try reflexivity; vm_compute; intuition discriminate.
Defined.

(** ** The return value of [wait] and the mutex *)

Lemma wait_during_done e w :
  done w = true ->
  forall owner, wait_during e owner w = (false, w, [EvDoneLoad true]).
Proof.
  intros Hd owner. unfold wait_during, wait_enter. rewrite Hd. reflexivity.
Qed.

(** C4: a call of [wait] that finds [done] set returns [false] at once: it
    reads the flag and does nothing else (no clock reading, no lock, no
    timed wait), whatever the owner thread does meanwhile, and leaves the
    object as it was. *)
Theorem wait_done_returns_false (e : wait_env) (w : pthread_wrapper) :
  done w = true ->
  wait e w = (false, w, [EvDoneLoad true])
  /\ (forall owner, wait_during e owner w = (false, w, [EvDoneLoad true]))
  /\ existsb is_gettimeofday (trace (wait e w)) = false
  /\ existsb is_lock (trace (wait e w)) = false
  /\ existsb is_timedwait (trace (wait e w)) = false.
Proof.
  intros Hd.
  pose proof (wait_during_done e w Hd) as Hw.
  unfold wait. rewrite (Hw (fun w1 => w1)). repeat split. exact Hw.
Qed.

Lemma wait_done_returns_false_witness :
  wait (at_time 1700000000 900000 0) (with_done true (detached_object 300000))
  = (false, with_done true (detached_object 300000), [EvDoneLoad true]).
Proof.
  apply (wait_done_returns_false (at_time 1700000000 900000 0)
           (with_done true (detached_object 300000))).
  reflexivity.
Defined.

(** C7: a call of [wait] that reaches the timed wait returns [true] when
    the wait ends with [ETIMEDOUT], and also when it ends with any code
    other than [ETIMEDOUT], [EINVAL] and [EPERM] (0, for a signal or a
    spurious wake, among them). *)
Theorem wait_true_on_timeout_or_other (e : wait_env) (w : pthread_wrapper) :
  done w = false ->
  timedwait_rc e = ETIMEDOUT
  \/ (timedwait_rc e <> ETIMEDOUT /\ timedwait_rc e <> EINVAL
      /\ timedwait_rc e <> EPERM) ->
  result (wait e w) = true
  /\ existsb is_timedwait (trace (wait e w)) = true.
Proof.
  intros Hd Hrc.
  unfold wait. rewrite (wait_during_not_done _ _ _ Hd). cbv zeta.
  unfold wait_resume.
  destruct Hrc as [Hrc | (Ht & Hi & Hp)].
  - rewrite Hrc. split; reflexivity.
  - apply Z.eqb_neq in Ht, Hi, Hp. rewrite Ht, Hi, Hp. split; reflexivity.
Qed.

Lemma wait_true_on_timeout_or_other_witness :
  result (wait (at_time 1700000000 5 ETIMEDOUT) (detached_object 10000)) = true
  /\ result (wait (at_time 1700000000 5 0) (detached_object 10000)) = true.
Proof.
  split.
  - apply (wait_true_on_timeout_or_other (at_time 1700000000 5 ETIMEDOUT)
             (detached_object 10000)); [reflexivity | left; reflexivity].
  - apply (wait_true_on_timeout_or_other (at_time 1700000000 5 0)
             (detached_object 10000));
      [reflexivity | right; repeat split; discriminate].
Defined.

(** C3: a call of [wait] that reaches the timed wait returns [false] when
    the wait ends with [EINVAL], after unlocking the mutex, and returns
    [false] when it ends with [EPERM], without any unlock: the mutex stays
    as the lock left it. *)
Theorem wait_false_on_einval_eperm (e : wait_env) (w : pthread_wrapper) :
  done w = false ->
  (timedwait_rc e = EINVAL ->
     result (wait e w) = false
     /\ last_event (trace (wait e w)) = Some (EvMutexUnlock 0)
     /\ _my_mutex (object_after (wait e w)) = Unlocked)
  /\ (timedwait_rc e = EPERM ->
        result (wait e w) = false
        /\ existsb is_unlock (trace (wait e w)) = false
        /\ _my_mutex (object_after (wait e w)) = Held).
Proof.
  intros Hd.
  unfold wait. rewrite (wait_during_not_done _ _ _ Hd). cbv zeta.
  unfold wait_resume.
  split; intros Hrc; rewrite Hrc; repeat split.
Qed.

Lemma wait_false_on_einval_eperm_witness :
  (result (wait (at_time 1700000000 5 EINVAL) (detached_object 10000)) = false
   /\ last_event (trace (wait (at_time 1700000000 5 EINVAL)
                              (detached_object 10000)))
      = Some (EvMutexUnlock 0)
   /\ _my_mutex (object_after (wait (at_time 1700000000 5 EINVAL)
                                    (detached_object 10000))) = Unlocked)
  /\ (result (wait (at_time 1700000000 5 EPERM) (detached_object 10000))
      = false
      /\ existsb is_unlock (trace (wait (at_time 1700000000 5 EPERM)
                                        (detached_object 10000))) = false
      /\ _my_mutex (object_after (wait (at_time 1700000000 5 EPERM)
                                       (detached_object 10000))) = Held).
Proof.
  split.
  - apply (wait_false_on_einval_eperm (at_time 1700000000 5 EINVAL)
             (detached_object 10000)); reflexivity.
  - apply (wait_false_on_einval_eperm (at_time 1700000000 5 EPERM)
             (detached_object 10000)); reflexivity.
Defined.

(** C9: a call of [wait] that reaches the timed wait and returns [true]
    never unlocks the mutex: it returns with the mutex held, and the next
    call of [wait] locks it again (the error-checking mutex answers
    [EDEADLK], which [wait] does not look at). *)
Theorem wait_true_keeps_mutex (e : wait_env) (w : pthread_wrapper) :
  done w = false ->
  result (wait e w) = true ->
  existsb is_lock (trace (wait e w)) = true
  /\ existsb is_unlock (trace (wait e w)) = false
  /\ _my_mutex (object_after (wait e w)) = Held
  /\ forall e', In (EvMutexLock EDEADLK)
                   (trace (wait e' (object_after (wait e w)))).
Proof.
  intros Hd.
  assert (E := wait_during_not_done e (fun w1 => w1) w Hd).
  change (wait_during e (fun w1 => w1) w) with (wait e w) in E.
  cbv zeta in E. unfold wait_resume in E.
  destruct (timedwait_rc e =? ETIMEDOUT);
    [| destruct (timedwait_rc e =? EINVAL);
       [| destruct (timedwait_rc e =? EPERM)]];
    rewrite E; cbn; intros Hr; try discriminate Hr; repeat split;
    intros e'; unfold wait;
    (rewrite wait_during_not_done by (cbn; exact Hd));
    cbn; unfold wait_resume;
    case_ifs;
    cbn; auto.
Qed.

Lemma wait_true_keeps_mutex_witness :
  existsb is_unlock
    (trace (wait (at_time 1700000000 5 ETIMEDOUT) (detached_object 10000)))
  = false
  /\ _my_mutex (object_after (wait (at_time 1700000000 5 ETIMEDOUT)
                                   (detached_object 10000))) = Held
  /\ In (EvMutexLock EDEADLK)
        (trace (wait (at_time 1700000001 5 ETIMEDOUT)
                  (object_after (wait (at_time 1700000000 5 ETIMEDOUT)
                                      (detached_object 10000))))).
Proof.
  destruct (wait_true_keeps_mutex (at_time 1700000000 5 ETIMEDOUT)
              (detached_object 10000) eq_refl eq_refl) as (_ & Hu & Hm & Hn).
  split; [exact Hu | split; [exact Hm | exact (Hn _)]].
Defined.

(** ** Reconfiguring the timeout *)


(** With an idle owner the statement-by-statement [wait] is [wait], and
    with an owner that acts during the timed wait only it is
    [wait_during]. *)
Lemma wait_racing_idle e w : wait_racing e idle w = wait e w.
Proof.
  unfold wait_racing, wait, wait_during, wait_enter, idle.
  cbn [before_reads between_reads after_reads while_blocked].
  destruct (done w); [reflexivity|].
  destruct (pthread_mutex_lock (_my_mutex w)) as [lrc m].
  change (deadline_of_reads (now e) (_timeout_microseconds w)
            (_timeout_microseconds w))
    with (deadline (now e) (_timeout_microseconds w)).
  destruct (wait_resume _ _ _) as [[r w2] tr2]. reflexivity.
Qed.

Lemma wait_racing_while_blocked e owner w :
  wait_racing e
    (Build_owner_schedule (fun w => w) (fun w => w) (fun w => w) owner) w
  = wait_during e owner w.
Proof.
  unfold wait_racing, wait_during, wait_enter.
  cbn [before_reads between_reads after_reads while_blocked].
  destruct (done w); [reflexivity|].
  destruct (pthread_mutex_lock (_my_mutex w)) as [lrc m].
  change (deadline_of_reads (now e) (_timeout_microseconds w)
            (_timeout_microseconds w))
    with (deadline (now e) (_timeout_microseconds w)).
  destruct (wait_resume _ _ _) as [[r w2] tr2]. reflexivity.
Qed.



Example set_timeout_between_reads_deadline :
  timedwait_deadline
    (trace (wait_racing (at_time 1700000000 0 ETIMEDOUT)
              (set_timeout_at BetweenReads 5000001)
              (detached_object 1999999))) =
    Some (Timespec.mk 1700000001 1000)
  /\ deadline (Timeval.mk 1700000000 0) 1999999 =
       Timespec.mk 1700000001 999999000
  /\ deadline (Timeval.mk 1700000000 0) 5000001 =
       Timespec.mk 1700000005 1000.
Proof. vm_compute. repeat split. Qed.



(** ** The polling loop *)

Lemma last_event_app tr1 tr2 :
  tr2 <> [] -> last_event (tr1 ++ tr2) = last_event tr2.
Proof.
  intros Hne. induction tr1 as [|ev tr1 IH]; [reflexivity|].
  cbn [app last_event]. rewrite IH.
  destruct (tr1 ++ tr2) eqn:E; [|reflexivity].
  apply app_eq_nil in E. destruct E as [_ E]. contradiction.
Qed.

Section Polling.

(** The values the successive reads of [_running] observe. *)
Variable loads : nat -> bool.

Lemma poll_running_only_loads fuel i :
  forallb is_running_load (snd (poll_running fuel loads i)) = true.
Proof.
  revert i. induction fuel as [|fuel IH]; intros i; cbn; [reflexivity|].
  destruct (loads i); [|reflexivity].
  specialize (IH (S i)). destruct (poll_running fuel loads (S i)). exact IH.
Qed.

(** The loop is left only on a read that saw [false]. *)
Lemma poll_running_returned fuel i tr :
  poll_running fuel loads i = (Returned, tr) ->
  last_event tr = Some (EvRunningLoad false) /\ tr <> [].
Proof.
  revert i tr. induction fuel as [|fuel IH]; intros i tr; cbn.
  - discriminate.
  - destruct (loads i).
    + destruct (poll_running fuel loads (S i)) as [c tr'] eqn:E.
      intros H; inversion H; subst.
      destruct (IH _ _ E) as [Hl Hne]. split; [|discriminate].
      destruct tr'; [contradiction | exact Hl].
    + intros H; inversion H; subst. split; [reflexivity | discriminate].
Qed.

(** It is left as soon as a read sees [false], given the fuel to get
    there. *)
Lemma poll_running_returns fuel i n :
  loads (i + n)%nat = false -> (n < fuel)%nat ->
  fst (poll_running fuel loads i) = Returned.
Proof.
  revert i n. induction fuel as [|fuel IH]; intros i n Hf Hn; [lia|].
  cbn. destruct (loads i) eqn:Hi; [|reflexivity].
  destruct n as [|n]; [rewrite Nat.add_0_r in Hf; congruence|].
  specialize (IH (S i) n). rewrite Nat.add_succ_r in Hf.
  specialize (IH Hf ltac:(lia)).
  destruct (poll_running fuel loads (S i)). exact IH.
Qed.

(** It is not left while the reads see [true]. *)
Lemma poll_running_spins fuel i :
  (forall k, (k < fuel)%nat -> loads (i + k)%nat = true) ->
  poll_running fuel loads i = (Spinning, repeat (EvRunningLoad true) fuel).
Proof.
  revert i. induction fuel as [|fuel IH]; intros i H; [reflexivity|].
  cbn. rewrite <- (Nat.add_0_r i) at 1. rewrite (H 0%nat) by lia.
  rewrite IH; [reflexivity|].
  intros k Hk. rewrite Nat.add_succ_comm. apply H. lia.
Qed.

End Polling.

Lemma existsb_forallb_disjoint (p q : event -> bool) tr :
  (forall ev, q ev = true -> p ev = false) ->
  forallb q tr = true -> existsb p tr = false.
Proof.
  intros Hpq. induction tr as [|ev tr IH]; [reflexivity|].
  cbn. intros H. apply andb_prop in H. destruct H as [Hq Ht].
  rewrite (Hpq _ Hq), (IH Ht). reflexivity.
Qed.

Lemma running_load_not_join ev : is_running_load ev = true -> is_join ev = false.
Proof. destruct ev; (reflexivity || discriminate). Qed.
Lemma running_load_not_signal ev :
  is_running_load ev = true -> is_signal ev = false.
Proof. destruct ev; (reflexivity || discriminate). Qed.
Lemma running_load_not_done_store ev :
  is_running_load ev = true -> is_done_store ev = false.
Proof. destruct ev; (reflexivity || discriminate). Qed.

(** ** [stop_thread], path by path *)

(** No join: [_running] or [_attached] was seen false. *)
Lemma stop_thread_join_skipped fuel e w :
  running_loads e 0%nat && _attached w = false ->
  stop_thread fuel e w =
    (fst (poll_running fuel (running_loads e) 1%nat), with_done true w,
     [EvDoneStore true; EvCondSignal; EvRunningLoad (running_loads e 0%nat)]
     ++ (if running_loads e 0%nat then [EvAttachedLoad false] else [])
     ++ snd (poll_running fuel (running_loads e) 1%nat)).
Proof.
  intros H. unfold stop_thread. cbn [with_done _attached]. rewrite H.
  destruct (poll_running fuel (running_loads e) 1%nat) as [c tr].
  destruct (running_loads e 0%nat), (_attached w);
    try discriminate H; reflexivity.
Qed.

(** The join succeeded. *)
Lemma stop_thread_joined fuel e w :
  running_loads e 0%nat && _attached w = true -> join_ret e = 0 ->
  stop_thread fuel e w =
    (fst (poll_running fuel (running_loads e) 1%nat), with_done true w,
     [EvDoneStore true; EvCondSignal; EvRunningLoad true; EvAttachedLoad true;
      EvJoin 0]
     ++ snd (poll_running fuel (running_loads e) 1%nat)).
Proof.
  intros H Hj. unfold stop_thread. cbn [with_done _attached].
  rewrite H, Hj. apply andb_prop in H. destruct H as [Hr Ha].
  rewrite Hr, Ha. cbn.
  destruct (poll_running fuel (running_loads e) 1%nat) as [c tr].
  reflexivity.
Qed.

(** The join failed. *)
Lemma stop_thread_join_failed fuel e w :
  running_loads e 0%nat && _attached w = true -> join_ret e <> 0 ->
  stop_thread fuel e w =
    (Returned, with_done true w,
     [EvDoneStore true; EvCondSignal; EvRunningLoad true; EvAttachedLoad true;
      EvJoin (join_ret e)]
     ++ (if (join_ret e =? ESRCH) || (join_ret e =? EINVAL)
            || (join_ret e =? EDEADLK)
         then [] else [EvPerror (join_ret e)])).
Proof.
  intros H Hj. unfold stop_thread. cbn [with_done _attached].
  rewrite H. apply andb_prop in H. destruct H as [Hr Ha].
  rewrite Hr, Ha. apply Z.eqb_neq in Hj. rewrite Hj. cbn.
  destruct (join_ret e =? ESRCH); [reflexivity|].
  destruct (join_ret e =? EINVAL); [reflexivity|].
  destruct (join_ret e =? EDEADLK); reflexivity.
Qed.

(** In every case [stop_thread] starts with the store and the signal and
    ends with [done] set; nothing after the signal stores to [done] or
    signals again. *)
Lemma stop_thread_shape fuel e w :
  exists rest,
    trace (stop_thread fuel e w) = EvDoneStore true :: EvCondSignal :: rest
    /\ existsb is_done_store rest = false
    /\ existsb is_signal rest = false
    /\ object_after (stop_thread fuel e w) = with_done true w.
Proof.
  pose proof (poll_running_only_loads (running_loads e) fuel 1%nat) as Hp.
  destruct (running_loads e 0%nat && _attached w) eqn:Hj.
  - destruct (Z.eq_dec (join_ret e) 0) as [Hz|Hz].
    + rewrite (stop_thread_joined _ _ _ Hj Hz).
      eexists; split; [reflexivity|]. cbn.
      rewrite (existsb_forallb_disjoint _ _ _ running_load_not_done_store Hp).
      rewrite (existsb_forallb_disjoint _ _ _ running_load_not_signal Hp).
      auto.
    + rewrite (stop_thread_join_failed _ _ _ Hj Hz).
      eexists; split; [reflexivity|]. cbn.
      destruct (_ || _); auto.
  - rewrite (stop_thread_join_skipped _ _ _ Hj).
    eexists; split; [reflexivity|]. cbn.
    rewrite !existsb_app.
    rewrite (existsb_forallb_disjoint _ _ _ running_load_not_done_store Hp).
    rewrite (existsb_forallb_disjoint _ _ _ running_load_not_signal Hp).
    destruct (running_loads e 0%nat); auto.
Qed.

(** ** The join *)

(** C5: [stop_thread] calls [pthread_join] exactly when it read both
    [_running] and [_attached] as true; and when the join then fails with
    [ESRCH], [EINVAL] or [EDEADLK], [stop_thread] just returns: nothing is
    reported through [perror]. *)
Theorem stop_thread_join_iff_running_attached
    (fuel : nat) (e : stop_env) (w : pthread_wrapper) :
  (existsb is_join (trace (stop_thread fuel e w)) = true <->
     running_loads e 0%nat = true /\ _attached w = true)
  /\ (running_loads e 0%nat = true -> _attached w = true ->
      join_ret e = ESRCH \/ join_ret e = EINVAL \/ join_ret e = EDEADLK ->
      stop_thread fuel e w =
        (Returned, with_done true w,
         [EvDoneStore true; EvCondSignal; EvRunningLoad true;
          EvAttachedLoad true; EvJoin (join_ret e)])
      /\ existsb is_perror (trace (stop_thread fuel e w)) = false).
Proof.
  pose proof (poll_running_only_loads (running_loads e) fuel 1%nat) as Hp.
  split.
  - destruct (running_loads e 0%nat && _attached w) eqn:Hj.
    + assert (Hin : existsb is_join (trace (stop_thread fuel e w)) = true).
      { destruct (Z.eq_dec (join_ret e) 0) as [Hz|Hz].
        - rewrite (stop_thread_joined _ _ _ Hj Hz). reflexivity.
        - rewrite (stop_thread_join_failed _ _ _ Hj Hz). reflexivity. }
      apply andb_prop in Hj. tauto.
    + rewrite (stop_thread_join_skipped _ _ _ Hj). cbn.
      rewrite existsb_app.
      rewrite (existsb_forallb_disjoint _ _ _ running_load_not_join Hp).
      split.
      * destruct (running_loads e 0%nat); discriminate.
      * intros [Hr Ha]. rewrite Hr, Ha in Hj. discriminate.
  - intros Hr Ha Hret.
    assert (Hj : running_loads e 0%nat && _attached w = true)
      by (rewrite Hr, Ha; reflexivity).
    assert (Hz : join_ret e <> 0)
      by (destruct Hret as [H|[H|H]]; rewrite H; discriminate).
    rewrite (stop_thread_join_failed _ _ _ Hj Hz).
    destruct Hret as [H|[H|H]]; rewrite H; split; reflexivity.
Qed.

Lemma stop_thread_join_iff_running_attached_witness :
  stop_thread 5 (never_stops EDEADLK) (attached_object 10000) =
    (Returned, with_done true (attached_object 10000),
     [EvDoneStore true; EvCondSignal; EvRunningLoad true;
      EvAttachedLoad true; EvJoin EDEADLK])
  /\ existsb is_join
       (trace (stop_thread 5 (stops_at 3 ESRCH) (detached_object 10000)))
     = false.
Proof.
  split.
  - apply (stop_thread_join_iff_running_attached 5 (never_stops EDEADLK)
             (attached_object 10000));
      [reflexivity | reflexivity | right; right; reflexivity].
  - destruct (stop_thread_join_iff_running_attached 5 (stops_at 3 ESRCH)
                (detached_object 10000)) as [[H _] _].
    destruct (existsb is_join
                (trace (stop_thread 5 (stops_at 3 ESRCH)
                          (detached_object 10000)))); [|reflexivity].
    destruct (H eq_refl) as [_ Ha]. discriminate Ha.
Defined.

(** ** Flag before signal *)

(** C6: in every run of [stop_thread] the store [done = true] is the first
    event and the one signal of the condition variable the second; [done]
    is never stored to afterwards and is set when the call ends.  A worker
    the signal wakes out of its timed wait therefore returns to an object
    with [done] set, and its next [wait] returns [false]. *)
Theorem stop_thread_sets_done_before_signal
    (fuel : nat) (e : stop_env) (w : pthread_wrapper) :
  (exists rest,
      trace (stop_thread fuel e w) = EvDoneStore true :: EvCondSignal :: rest
      /\ existsb is_done_store rest = false
      /\ existsb is_signal rest = false)
  /\ done (object_after (stop_thread fuel e w)) = true
  /\ (forall e', result (wait e' (object_after (stop_thread fuel e w)))
                 = false)
  /\ (forall e0 e',
        let woken :=
          wait_during e0 (fun w1 => object_after (stop_thread fuel e w1)) w in
        done (object_after woken) = true
        /\ result (wait e' (object_after woken)) = false).
Proof.
  destruct (stop_thread_shape fuel e w) as (rest & Ht & Hs & Hg & Ho).
  split; [exists rest; auto|].
  assert (Hfalse : forall e' w', done w' = true -> result (wait e' w') = false).
  { intros e' w' Hd.
    unfold wait. rewrite (wait_during_done e' w' Hd). reflexivity. }
  split; [rewrite Ho; reflexivity|].
  split; [intros e'; apply Hfalse; rewrite Ho; reflexivity|].
  intros e0 e'. cbv zeta.
  assert (Hd : done (object_after
                       (wait_during e0
                          (fun w1 => object_after (stop_thread fuel e w1)) w))
               = true).
  { destruct (done w) eqn:Hdw.
    - unfold wait_during, wait_enter. rewrite Hdw. exact Hdw.
    - rewrite (wait_during_not_done _ _ _ Hdw). cbv zeta.
      destruct (stop_thread_shape fuel e (with_mutex Held w))
        as (_ & _ & _ & _ & Ho').
      rewrite Ho'. unfold wait_resume.
      case_ifs; reflexivity. }
  split; [exact Hd | apply Hfalse; exact Hd].
Qed.

Lemma stop_thread_sets_done_before_signal_witness :
  trace (stop_thread 5 (stops_at 3 0) (detached_object 10000)) =
    [EvDoneStore true; EvCondSignal; EvRunningLoad true; EvAttachedLoad false;
     EvRunningLoad true; EvRunningLoad true; EvRunningLoad false]
  /\ result (wait (at_time 1700000000 5 0)
               (object_after (stop_thread 5 (stops_at 3 0)
                                (detached_object 10000)))) = false.
Proof.
  destruct (stop_thread_sets_done_before_signal 5 (stops_at 3 0)
              (detached_object 10000)) as (_ & _ & H & _).
  split; [reflexivity | exact (H _)].
Defined.

(** ** Returning from [stop_thread] *)

(** C1 as stated does not hold: [stop_thread] can return, after a join
    that failed, although no read of [_running] ever saw [false]. *)
Lemma stop_thread_returns_while_running :
  ~ (forall (fuel : nat) (e : stop_env) (w : pthread_wrapper),
        result (stop_thread fuel e w) = Returned ->
        existsb is_join (trace (stop_thread fuel e w)) = false
        \/ join_ret e <> 0 ->
        In (EvRunningLoad false) (trace (stop_thread fuel e w))).
Proof.
  intros H.
  assert (Hin : In (EvRunningLoad false)
                   (trace (stop_thread 5 (never_stops EDEADLK)
                             (attached_object 10000)))).
  { apply H; [reflexivity | right; discriminate]. }
  vm_compute in Hin.
  repeat (destruct Hin as [Hin|Hin]; [discriminate Hin|]).
  exact Hin.
Qed.

(** The same run inside the destructor: the condition variable and the
    mutex are destroyed although every read of [_running] saw [true]. *)
Example destroy_while_running :
  destroy 5 (never_stops EDEADLK) (attached_object 10000) =
    (Returned, with_done true (attached_object 10000),
     [EvDoneStore true; EvCondSignal; EvRunningLoad true; EvAttachedLoad true;
      EvJoin EDEADLK; EvCondDestroy; EvMutexDestroy]).
Proof. reflexivity. Qed.

(** C1, amended: when the join was skipped ([_running] or [_attached] read
    as false) or succeeded, [stop_thread] polls [_running]: it returns only
    after a read that saw [false], it does return once such a read comes,
    and it keeps spinning while the reads see [true].  When the join was
    attempted and failed, with whatever code, [stop_thread] returns at once:
    [_running] is read once, in the test before the join, and not
    polled. *)
Theorem stop_thread_polls_unless_join_failed
    (fuel : nat) (e : stop_env) (w : pthread_wrapper) :
  (running_loads e 0%nat && _attached w = false \/ join_ret e = 0 ->
     (result (stop_thread fuel e w) = Returned ->
        last_event (trace (stop_thread fuel e w))
        = Some (EvRunningLoad false))
     /\ (forall n, running_loads e (S n) = false -> (n < fuel)%nat ->
           result (stop_thread fuel e w) = Returned)
     /\ ((forall n, (n < fuel)%nat -> running_loads e (S n) = true) ->
           result (stop_thread fuel e w) = Spinning))
  /\ (running_loads e 0%nat && _attached w = true -> join_ret e <> 0 ->
        result (stop_thread fuel e w) = Returned
        /\ filter is_running_load (trace (stop_thread fuel e w))
           = [EvRunningLoad true]).
Proof.
  split.
  - intros Hcase.
    assert (E : exists head,
               stop_thread fuel e w =
                 (fst (poll_running fuel (running_loads e) 1%nat),
                  with_done true w,
                  head ++ snd (poll_running fuel (running_loads e) 1%nat))).
    { destruct (running_loads e 0%nat && _attached w) eqn:Hj.
      - destruct Hcase as [Hc|Hz]; [discriminate Hc|].
        rewrite (stop_thread_joined _ _ _ Hj Hz). eexists; reflexivity.
      - rewrite (stop_thread_join_skipped _ _ _ Hj).
        eexists. rewrite app_assoc. reflexivity. }
    destruct E as [head E]. rewrite E. unfold result, trace; cbn [fst snd].
    repeat split.
    + intros Hret.
      destruct (poll_running fuel (running_loads e) 1%nat) as [c tr] eqn:Ep.
      cbn [fst snd] in *. subst c.
      destruct (poll_running_returned _ _ _ _ Ep) as [Hl Hne].
      rewrite (last_event_app _ _ Hne). exact Hl.
    + intros n Hn Hlt.
      apply (poll_running_returns (running_loads e) fuel 1%nat n); assumption.
    + intros Hall.
      rewrite (poll_running_spins (running_loads e) fuel 1%nat);
        [reflexivity|].
      intros k Hk. apply Hall. exact Hk.
  - intros Hj Hz. rewrite (stop_thread_join_failed _ _ _ Hj Hz).
    split; [reflexivity|]. cbn.
    destruct (_ || _); reflexivity.
Qed.

Lemma stop_thread_polls_unless_join_failed_witness :
  (result (stop_thread 5 (stops_at 3 0) (detached_object 10000)) = Returned
   /\ last_event (trace (stop_thread 5 (stops_at 3 0)
                           (detached_object 10000)))
      = Some (EvRunningLoad false))
  /\ result (stop_thread 5 (never_stops 0) (attached_object 10000)) = Spinning
  /\ filter is_running_load
       (trace (stop_thread 5 (never_stops EDEADLK) (attached_object 10000)))
     = [EvRunningLoad true].
Proof.
  destruct (stop_thread_polls_unless_join_failed 5 (stops_at 3 0)
              (detached_object 10000)) as [H1 _].
  destruct (H1 (or_introl eq_refl)) as (Hlast & Hret & _).
  destruct (stop_thread_polls_unless_join_failed 5 (never_stops 0)
              (attached_object 10000)) as [H2 _].
  destruct (H2 (or_intror eq_refl)) as (_ & _ & Hspin).
  destruct (stop_thread_polls_unless_join_failed 5 (never_stops EDEADLK)
              (attached_object 10000)) as [_ H3].
  destruct (H3 eq_refl ltac:(discriminate)) as [_ Hloads].
  split; [split|split].
  - apply (Hret 2%nat); [reflexivity | lia].
  - apply Hlast. apply (Hret 2%nat); [reflexivity | lia].
  - apply Hspin. intros n _. reflexivity.
  - exact Hloads.
Defined.

(** * Further properties of the code *)

(** ** The deadline as an instant *)

(** X1: counted in nanoseconds, the deadline is the clock reading plus the
    timeout, with or without the carry. *)
Theorem deadline_is_now_plus_timeout (S U T : Z) :
  is_uint T -> 0 <= U < MILLION ->
  is_long S -> S + T / MILLION + 1 <= LONG_MAX ->
  Timespec.tv_sec (deadline (Timeval.mk S U) T) * 1000000000
  + Timespec.tv_nsec (deadline (Timeval.mk S U) T)
  = 1000 * (S * MILLION + U + T).
Proof.
  intros HT HU HS Hfit.
  rewrite (deadline_closed_form S U T) by (assumption || lia).
  pose proof (Z.div_mod T MILLION ltac:(discriminate)) as Hdm.
  set (q := T / MILLION) in *. set (r := T mod MILLION) in *.
  destruct (U + r >? MILLION); cbn [Timespec.tv_sec Timespec.tv_nsec];
    unfold MILLION in *; lia.
Qed.

Lemma deadline_is_now_plus_timeout_witness :
  Timespec.tv_sec (deadline (Timeval.mk 1700000000 900000) 2300000)
  * 1000000000
  + Timespec.tv_nsec (deadline (Timeval.mk 1700000000 900000) 2300000)
  = 1000 * (1700000000 * MILLION + 900000 + 2300000).
Proof.
  apply (deadline_is_now_plus_timeout 1700000000 900000 2300000);
    vm_compute; intuition discriminate.
Defined.

(** X2: the deadline's seconds are the clock's seconds plus the timeout's
    whole seconds, plus at most one; its nanoseconds lie between 0 and
    10^9 inclusive, and they are a valid [tv_nsec] (below 10^9) exactly
    when the clock's microseconds and the timeout's remainder do not add
    up to exactly one million. *)
Theorem deadline_nsec_valid_iff (S U T : Z) :
  is_uint T -> 0 <= U < MILLION ->
  is_long S -> S + T / MILLION + 1 <= LONG_MAX ->
  S + T / MILLION <= Timespec.tv_sec (deadline (Timeval.mk S U) T)
                  <= S + T / MILLION + 1
  /\ 0 <= Timespec.tv_nsec (deadline (Timeval.mk S U) T) <= 1000000000
  /\ (Timespec.valid_nsec (deadline (Timeval.mk S U) T) <->
      U + T mod MILLION <> MILLION).
Proof.
  intros HT HU HS Hfit.
  rewrite (deadline_closed_form S U T) by (assumption || lia).
  destruct (timeout_split T HT) as [_ Hr].
  set (q := T / MILLION) in *. set (r := T mod MILLION) in *.
  unfold Timespec.valid_nsec.
  destruct (Z.gtb_spec (U + r) MILLION);
    cbn [Timespec.tv_sec Timespec.tv_nsec]; unfold MILLION in *; lia.
Qed.

Lemma deadline_nsec_valid_iff_witness :
  Timespec.valid_nsec (deadline (Timeval.mk 1700000000 900000) 2300000)
  /\ ~ Timespec.valid_nsec (deadline (Timeval.mk 1700000000 700000) 2300000).
Proof.
  split.
  - apply (deadline_nsec_valid_iff 1700000000 900000 2300000);
      vm_compute; intuition discriminate.
  - intros H.
    apply (deadline_nsec_valid_iff 1700000000 700000 2300000) in H;
      [apply H; reflexivity | | | |]; vm_compute; intuition discriminate.
Defined.

(** ** What [wait] returns, and what it does to the mutex *)

(** X3: [wait] returns [true] exactly when [done] was clear and the timed
    wait ended with a code other than [EINVAL] and [EPERM]. *)
Theorem wait_true_iff (e : wait_env) (w : pthread_wrapper) :
  result (wait e w) = true <->
  done w = false /\ timedwait_rc e <> EINVAL /\ timedwait_rc e <> EPERM.
Proof.
  destruct (done w) eqn:Hd.
  - unfold wait. rewrite (wait_during_done e w Hd). cbn.
    split; [discriminate | intros [H _]; discriminate H].
  - unfold wait. rewrite (wait_during_not_done _ _ _ Hd). cbv zeta.
    unfold wait_resume.
    destruct (Z.eqb_spec (timedwait_rc e) ETIMEDOUT) as [Ht|Ht].
    + rewrite Ht. cbn. split; [|reflexivity].
      intros _. repeat split; discriminate.
    + destruct (Z.eqb_spec (timedwait_rc e) EINVAL) as [Hi|Hi].
      * cbn. split; [discriminate | intros (_ & H & _); contradiction].
      * destruct (Z.eqb_spec (timedwait_rc e) EPERM) as [Hp|Hp]; cbn.
        -- split; [discriminate | intros (_ & _ & H); contradiction].
        -- split; [auto | reflexivity].
Qed.

(** X4: in a call of [wait] that gets past the test of [done], the lock
    is answered 0 when the mutex was free and [EDEADLK] when the caller
    held it already; an unlock happens only after [EINVAL] and never
    fails; and the mutex is left free after [EINVAL] and held after any
    other code. *)
Theorem wait_mutex_discipline (e : wait_env) (w : pthread_wrapper) :
  done w = false ->
  In (EvMutexLock (match _my_mutex w with Unlocked => 0 | Held => EDEADLK end))
     (trace (wait e w))
  /\ (forall rc, In (EvMutexUnlock rc) (trace (wait e w)) ->
                 rc = 0 /\ timedwait_rc e = EINVAL)
  /\ _my_mutex (object_after (wait e w)) =
       (if timedwait_rc e =? EINVAL then Unlocked else Held).
Proof.
  intros Hd.
  unfold wait. rewrite (wait_during_not_done _ _ _ Hd). cbv zeta.
  unfold wait_resume.
  assert (Hlock : forall tr2,
             In (EvMutexLock (match _my_mutex w with
                              | Unlocked => 0 | Held => EDEADLK end))
                ([EvDoneLoad false; EvGettimeofday (now e);
                  EvMutexLock (fst (pthread_mutex_lock (_my_mutex w)))]
                 ++ tr2)).
  { intros tr2. destruct (_my_mutex w); cbn; auto. }
  destruct (Z.eqb_spec (timedwait_rc e) ETIMEDOUT) as [Ht|Ht].
  - rewrite Ht. cbn [trace object_after fst snd with_mutex _my_mutex].
    split; [apply Hlock|]. split; [|reflexivity].
    intros rc H. cbn in H. repeat (destruct H as [H|H]; try discriminate H).
    contradiction.
  - destruct (Z.eqb_spec (timedwait_rc e) EINVAL) as [Hi|Hi].
    + cbn [trace object_after fst snd with_mutex _my_mutex
             pthread_mutex_unlock].
      split; [apply Hlock|]. split; [|reflexivity].
      intros rc H. cbn in H.
      repeat (destruct H as [H|H]; try discriminate H); [|contradiction].
      inversion H. split; [reflexivity | exact Hi].
    + destruct (timedwait_rc e =? EPERM);
        cbn [trace object_after fst snd with_mutex _my_mutex];
        (split; [apply Hlock|]); (split; [|reflexivity]);
        intros rc H; cbn in H;
        repeat (destruct H as [H|H]; try discriminate H);
        contradiction.
Qed.

Lemma wait_mutex_discipline_witness :
  In (EvMutexLock 0)
     (trace (wait (at_time 1700000000 5 EINVAL) (detached_object 10000)))
  /\ _my_mutex (object_after (wait (at_time 1700000000 5 EINVAL)
                                   (detached_object 10000))) = Unlocked.
Proof.
  destruct (wait_mutex_discipline (at_time 1700000000 5 EINVAL)
              (detached_object 10000) eq_refl) as (Hl & _ & Hm).
  split; [exact Hl | exact Hm].
Defined.

(** ** What the methods leave alone *)

Lemma wait_changes_mutex_only e w :
  exists m, object_after (wait e w) = with_mutex m w.
Proof.
  unfold wait, wait_during, wait_enter.
  destruct (done w).
  - exists (_my_mutex w). destruct w; reflexivity.
  - destruct (pthread_mutex_lock (_my_mutex w)) as [lrc m].
    unfold wait_resume. case_ifs; cbn;
      try (destruct m; cbn; eexists; reflexivity);
      eexists; reflexivity.
Qed.

Lemma wait_never_joins e w : existsb is_join (trace (wait e w)) = false.
Proof.
  unfold wait, wait_during, wait_enter.
  destruct (done w); [reflexivity|].
  destruct (pthread_mutex_lock (_my_mutex w)) as [lrc m].
  unfold wait_resume. case_ifs; try (destruct m); reflexivity.
Qed.

Lemma stop_thread_object fuel e w :
  object_after (stop_thread fuel e w) = with_done true w.
Proof. destruct (stop_thread_shape fuel e w) as (_ & _ & _ & _ & H). exact H. Qed.

Lemma stop_thread_detached_no_join fuel e w :
  _attached w = false -> existsb is_join (trace (stop_thread fuel e w)) = false.
Proof.
  intros Ha.
  rewrite stop_thread_join_skipped by (rewrite Ha; apply andb_false_r).
  cbn. rewrite existsb_app.
  rewrite (existsb_forallb_disjoint _ _ _ running_load_not_join
             (poll_running_only_loads (running_loads e) fuel 1%nat)).
  destruct (running_loads e 0%nat); reflexivity.
Qed.

Lemma do_call_fields c w :
  get_context (fst (do_call c w)) = get_context w
  /\ _attached (fst (do_call c w)) = _attached w
  /\ (done w = true -> done (fst (do_call c w)) = true)
  /\ _timeout_microseconds (fst (do_call c w)) =
       last_timeout [c] (_timeout_microseconds w).
Proof.
  destruct c as [T|e|fuel e]; cbn [do_call fst last_timeout].
  - repeat split. auto.
  - destruct (wait_changes_mutex_only e w) as [m Hm]. rewrite Hm.
    repeat split. auto.
  - rewrite stop_thread_object. repeat split.
Qed.

Lemma do_calls_cons c cs w :
  do_calls (c :: cs) w =
    (fst (do_calls cs (fst (do_call c w))),
     snd (do_call c w) ++ snd (do_calls cs (fst (do_call c w)))).
Proof.
  cbn [do_calls]. destruct (do_call c w) as [w1 tr1]. cbn [fst snd].
  destruct (do_calls cs w1); reflexivity.
Qed.

Lemma do_calls_app cs1 cs2 w :
  fst (do_calls (cs1 ++ cs2) w) = fst (do_calls cs2 (fst (do_calls cs1 w))).
Proof.
  revert w. induction cs1 as [|c cs1 IH]; intros w; [reflexivity|].
  rewrite <- app_comm_cons, !do_calls_cons. cbn [fst]. apply IH.
Qed.

Lemma do_calls_keep_done cs w :
  done w = true -> done (fst (do_calls cs w)) = true.
Proof.
  revert w. induction cs as [|c cs IH]; intros w Hd; [exact Hd|].
  rewrite do_calls_cons. cbn [fst]. apply IH.
  apply (do_call_fields c w). exact Hd.
Qed.

(** X5: whatever calls of [set_timeout], [wait] and [stop_thread] are made
    on an object, [get_context] keeps returning the same pointer,
    [_attached] keeps its value, and the stored timeout is the argument of
    the last [set_timeout] (the original one if there was none): [wait]
    and [stop_thread] never write these fields. *)
Theorem calls_keep_context_attached_timeout
    (cs : list call) (w : pthread_wrapper) :
  get_context (fst (do_calls cs w)) = get_context w
  /\ _attached (fst (do_calls cs w)) = _attached w
  /\ _timeout_microseconds (fst (do_calls cs w)) =
       last_timeout cs (_timeout_microseconds w).
Proof.
  revert w. induction cs as [|c cs IH]; intros w; [repeat split|].
  rewrite do_calls_cons. cbn [fst].
  destruct (IH (fst (do_call c w))) as (Hc & Ha & Ht).
  destruct (do_call_fields c w) as (Hc1 & Ha1 & _ & Ht1).
  rewrite Hc, Ha, Ht, Hc1, Ha1, Ht1.
  repeat split. destruct c; reflexivity.
Qed.

(** X6: once [stop_thread] has been called, every later [wait] returns
    [false] at once and does nothing but read [done], whatever calls were
    made before the stop or between the stop and that [wait]: nothing ever
    clears [done]. *)
Theorem wait_false_after_stop
    (cs1 cs2 : list call) (fuel : nat) (se : stop_env) (e : wait_env)
    (w : pthread_wrapper) :
  wait e (fst (do_calls (cs1 ++ CallStopThread fuel se :: cs2) w)) =
    (false, fst (do_calls (cs1 ++ CallStopThread fuel se :: cs2) w),
     [EvDoneLoad true]).
Proof.
  unfold wait. apply wait_during_done.
  rewrite do_calls_app, do_calls_cons. cbn [fst do_call].
  apply do_calls_keep_done. rewrite stop_thread_object. reflexivity.
Qed.

(** X7: an object whose constructor's detach succeeded is never joined: no
    history of calls on it contains a [pthread_join]. *)
Theorem detached_never_joined
    (ce : ctor_env) (context T : Z) (w : pthread_wrapper) (cs : list call) :
  fst (construct ce context T) = Some w ->
  detach_ret ce = 0 ->
  _attached w = false
  /\ existsb is_join (snd (do_calls cs w)) = false.
Proof.
  intros Hc Hdet.
  assert (Ha : _attached w = false).
  { unfold construct in Hc. rewrite Hdet in Hc.
    destruct (negb (mutex_init_rc ce =? 0)); [discriminate Hc|].
    destruct (negb (cond_init_rc ce =? 0)); [discriminate Hc|].
    destruct (negb (create_ret ce =? 0)); [discriminate Hc|].
    cbn in Hc. inversion Hc. reflexivity. }
  split; [exact Ha|]. clear Hc Hdet.
  revert w Ha. induction cs as [|c cs IH]; intros w Ha; [reflexivity|].
  rewrite do_calls_cons. cbn [snd]. rewrite existsb_app.
  rewrite IH by (destruct (do_call_fields c w) as (_ & H & _);
                 rewrite H; exact Ha).
  rewrite orb_false_r.
  destruct c as [T'|e|fuel e]; cbn [do_call snd].
  - reflexivity.
  - apply wait_never_joins.
  - apply stop_thread_detached_no_join. exact Ha.
Qed.

Lemma detached_never_joined_witness :
  existsb is_join
    (snd (do_calls [CallWait (at_time 1700000000 5 0);
                    CallStopThread 5 (stops_at 3 0);
                    CallStopThread 5 (never_stops 0)]
                   (detached_object 10000))) = false.
Proof.
  apply (detached_never_joined (Build_ctor_env 0 0 0 0) 0 10000
           (detached_object 10000)); reflexivity.
Defined.

Lemma running_load_not_lock ev :
  is_running_load ev = true -> is_lock ev = false.
Proof. destruct ev; (reflexivity || discriminate). Qed.
Lemma running_load_not_unlock ev :
  is_running_load ev = true -> is_unlock ev = false.
Proof. destruct ev; (reflexivity || discriminate). Qed.
Lemma running_load_not_timedwait ev :
  is_running_load ev = true -> is_timedwait ev = false.
Proof. destruct ev; (reflexivity || discriminate). Qed.

(** X8: [stop_thread] does not touch the mutex (the lock around the store
    to [done] is commented out): it neither locks nor unlocks it, signals
    the condition variable without holding it, and leaves every field but
    [done] as it was. *)
Theorem stop_thread_leaves_mutex_alone
    (fuel : nat) (e : stop_env) (w : pthread_wrapper) :
  existsb is_lock (trace (stop_thread fuel e w)) = false
  /\ existsb is_unlock (trace (stop_thread fuel e w)) = false
  /\ existsb is_timedwait (trace (stop_thread fuel e w)) = false
  /\ object_after (stop_thread fuel e w) = with_done true w.
Proof.
  pose proof (poll_running_only_loads (running_loads e) fuel 1%nat) as Hp.
  assert (Hl : existsb is_lock
                 (snd (poll_running fuel (running_loads e) 1%nat)) = false)
    by (apply (existsb_forallb_disjoint _ _ _ running_load_not_lock Hp)).
  assert (Hu : existsb is_unlock
                 (snd (poll_running fuel (running_loads e) 1%nat)) = false)
    by (apply (existsb_forallb_disjoint _ _ _ running_load_not_unlock Hp)).
  assert (Hw : existsb is_timedwait
                 (snd (poll_running fuel (running_loads e) 1%nat)) = false)
    by (apply (existsb_forallb_disjoint _ _ _ running_load_not_timedwait Hp)).
  split; [|split; [|split; [|apply stop_thread_object]]].
  all: destruct (running_loads e 0%nat && _attached w) eqn:Hj;
    [ destruct (Z.eq_dec (join_ret e) 0) as [Hz|Hz];
      [ rewrite (stop_thread_joined _ _ _ Hj Hz); cbn;
        rewrite ?Hl, ?Hu, ?Hw; reflexivity
      | rewrite (stop_thread_join_failed _ _ _ Hj Hz); cbn;
        destruct (_ || _); reflexivity ]
    | rewrite (stop_thread_join_skipped _ _ _ Hj); cbn;
      rewrite existsb_app, ?Hl, ?Hu, ?Hw;
      destruct (running_loads e 0%nat); reflexivity ].
Qed.

(** ** Destruction *)

Lemma stop_thread_polled fuel e w :
  running_loads e 0%nat && _attached w = false \/ join_ret e = 0 ->
  exists head,
    existsb is_destroy head = false
    /\ stop_thread fuel e w =
         (fst (poll_running fuel (running_loads e) 1%nat), with_done true w,
          head ++ snd (poll_running fuel (running_loads e) 1%nat)).
Proof.
  intros Hcase.
  destruct (running_loads e 0%nat && _attached w) eqn:Hj.
  - destruct Hcase as [Hc|Hz]; [discriminate Hc|].
    rewrite (stop_thread_joined _ _ _ Hj Hz).
    eexists; split; [|reflexivity]. reflexivity.
  - rewrite (stop_thread_join_skipped _ _ _ Hj).
    eexists. rewrite app_assoc. split; [|reflexivity].
    destruct (running_loads e 0%nat); reflexivity.
Qed.

Lemma last_event_split tr ev :
  last_event tr = Some ev -> exists pre, tr = pre ++ [ev].
Proof.
  induction tr as [|a tr IH]; [discriminate|].
  destruct tr as [|b tr].
  - cbn. intros H; inversion H. exists []. reflexivity.
  - intros H. destruct (IH H) as [pre Hpre].
    exists (a :: pre). rewrite Hpre. reflexivity.
Qed.

Lemma running_load_not_destroy ev :
  is_running_load ev = true -> is_destroy ev = false.
Proof. destruct ev; (reflexivity || discriminate). Qed.

(** X9: when the join was skipped or succeeded, the destructor destroys
    the condition variable and the mutex only directly after a read of
    [_running] that saw [false]; and as long as the reads see [true] it
    destroys nothing. *)
Theorem destroy_waits_for_running_clear
    (fuel : nat) (e : stop_env) (w : pthread_wrapper) :
  running_loads e 0%nat && _attached w = false \/ join_ret e = 0 ->
  (result (destroy fuel e w) = Returned ->
     exists pre,
       trace (destroy fuel e w) =
         pre ++ [EvRunningLoad false; EvCondDestroy; EvMutexDestroy]
       /\ existsb is_destroy pre = false)
  /\ ((forall n, (n < fuel)%nat -> running_loads e (S n) = true) ->
       result (destroy fuel e w) = Spinning
       /\ existsb is_destroy (trace (destroy fuel e w)) = false).
Proof.
  intros Hcase.
  destruct (stop_thread_polled fuel e w Hcase) as (head & Hh & E).
  pose proof (poll_running_only_loads (running_loads e) fuel 1%nat) as Hp.
  pose proof (existsb_forallb_disjoint _ _ _ running_load_not_destroy Hp)
    as Hnd.
  unfold destroy. rewrite E.
  destruct (poll_running fuel (running_loads e) 1%nat) as [c tr] eqn:Ep.
  cbn [fst snd] in *. split.
  - destruct c; cbn; [|discriminate]. intros _.
    destruct (poll_running_returned _ _ _ _ Ep) as [Hl _].
    destruct (last_event_split _ _ Hl) as [pre Hpre]. subst tr.
    exists (head ++ pre). split.
    + rewrite <- !app_assoc. reflexivity.
    + rewrite existsb_app in *. rewrite Hh.
      apply orb_false_elim in Hnd. destruct Hnd as [Hnd _].
      rewrite Hnd. reflexivity.
  - intros Hall.
    rewrite (poll_running_spins (running_loads e) fuel 1%nat) in Ep
      by (intros k Hk; apply Hall; exact Hk).
    inversion Ep; subst. cbn. split; [reflexivity|].
    rewrite existsb_app, Hh. exact Hnd.
Qed.

Lemma destroy_waits_for_running_clear_witness :
  (exists pre,
      trace (destroy 5 (stops_at 3 0) (detached_object 10000)) =
        pre ++ [EvRunningLoad false; EvCondDestroy; EvMutexDestroy]
      /\ existsb is_destroy pre = false)
  /\ existsb is_destroy
       (trace (destroy 5 (never_stops 0) (attached_object 10000))) = false.
Proof.
  split.
  - apply (destroy_waits_for_running_clear 5 (stops_at 3 0)
             (detached_object 10000)); [left|]; reflexivity.
  - apply (destroy_waits_for_running_clear 5 (never_stops 0)
             (attached_object 10000)); [right|intros n _]; reflexivity.
Defined.

(** X10: stopping again is harmless once the worker is gone.  If the first
    two reads of [_running] see [false], [stop_thread] returns at once
    without any join or [perror], on a fresh object and on one already
    stopped alike, and then the destructor goes straight on to destroy the
    primitives; and a second [stop_thread] never changes the object the
    first one left. *)
Theorem stop_thread_again_is_harmless
    (fuel : nat) (e : stop_env) (w : pthread_wrapper) :
  running_loads e 0%nat = false -> running_loads e 1%nat = false ->
  (0 < fuel)%nat ->
  stop_thread fuel e w =
    (Returned, with_done true w,
     [EvDoneStore true; EvCondSignal; EvRunningLoad false;
      EvRunningLoad false])
  /\ destroy fuel e w =
       (Returned, with_done true w,
        [EvDoneStore true; EvCondSignal; EvRunningLoad false;
         EvRunningLoad false; EvCondDestroy; EvMutexDestroy])
  /\ (forall fuel0 e0 w0,
        w = object_after (stop_thread fuel0 e0 w0) ->
        object_after (stop_thread fuel e w) = w).
Proof.
  intros H0 H1 Hf.
  assert (E : stop_thread fuel e w =
              (Returned, with_done true w,
               [EvDoneStore true; EvCondSignal; EvRunningLoad false;
                EvRunningLoad false])).
  { rewrite stop_thread_join_skipped by (rewrite H0; reflexivity).
    rewrite H0. destruct fuel as [|fuel]; [lia|].
    cbn [poll_running]. rewrite H1. reflexivity. }
  split; [exact E|]. split.
  - unfold destroy. rewrite E. reflexivity.
  - intros fuel0 e0 w0 Hw. rewrite stop_thread_object.
    rewrite Hw, stop_thread_object. reflexivity.
Qed.

Lemma stop_thread_again_is_harmless_witness :
  destroy 1 (stops_at 0 0)
    (object_after (stop_thread 5 (stops_at 3 0) (attached_object 10000))) =
    (Returned, with_done true (attached_object 10000),
     [EvDoneStore true; EvCondSignal; EvRunningLoad false;
      EvRunningLoad false; EvCondDestroy; EvMutexDestroy]).
Proof.
  apply (stop_thread_again_is_harmless 1 (stops_at 0 0)
           (object_after (stop_thread 5 (stops_at 3 0)
                            (attached_object 10000))));
    [reflexivity | reflexivity | lia].
Defined.

(** ** The Kitten branch of [wait] *)

(** X11: on Kitten [wait] returns [true] exactly when [done] was clear and
    [nanosleep] answered 0.  With [done] set it does not sleep; otherwise
    the interval it sleeps for is the timeout exactly, with whole seconds
    at most 4294 and nanoseconds always below 10^9. *)
Theorem wait_kitten_sleeps_timeout (rc : Z) (w : pthread_wrapper) :
  is_uint (_timeout_microseconds w) ->
  (fst (wait_kitten rc w) = true <-> done w = false /\ rc = 0)
  /\ (done w = true -> snd (wait_kitten rc w) = None)
  /\ (done w = false ->
      exists ts,
        snd (wait_kitten rc w) = Some ts
        /\ Timespec.valid_nsec ts
        /\ 0 <= Timespec.tv_sec ts <= 4294
        /\ Timespec.tv_sec ts * 1000000000 + Timespec.tv_nsec ts
           = 1000 * _timeout_microseconds w).
Proof.
  intros HT. unfold wait_kitten.
  destruct (timeout_split _ HT) as [Hq Hr].
  pose proof (Z.div_mod (_timeout_microseconds w) MILLION
                ltac:(discriminate)) as Hdm.
  set (q := _timeout_microseconds w / MILLION) in *.
  set (r := _timeout_microseconds w mod MILLION) in *.
  destruct (done w).
  - cbn. repeat split; try discriminate. intros [H _]; discriminate H.
  - rewrite (to_int_small q), (to_int_small r) by in_range.
    rewrite (to_int_small (1000 * r)) by in_range.
    rewrite !to_long_small by in_range.
    split; [|split; [discriminate|]].
    + destruct (Z.eqb_spec rc 0) as [Hz|Hz]; cbn.
      * split; auto.
      * split; [discriminate | intros [_ H]; contradiction].
    + intros _. exists (Timespec.mk q (1000 * r)).
      split; [destruct (negb (rc =? 0)); reflexivity|].
      unfold Timespec.valid_nsec; cbn [Timespec.tv_sec Timespec.tv_nsec].
      unfold MILLION in *. lia.
Qed.

Lemma wait_kitten_sleeps_timeout_witness :
  exists ts,
    snd (wait_kitten 0 (detached_object 2300000)) = Some ts
    /\ Timespec.valid_nsec ts
    /\ 0 <= Timespec.tv_sec ts <= 4294
    /\ Timespec.tv_sec ts * 1000000000 + Timespec.tv_nsec ts
       = 1000 * 2300000.
Proof.
  apply (wait_kitten_sleeps_timeout 0 (detached_object 2300000));
    [vm_compute; intuition discriminate | reflexivity].
Defined.

(** ** Construction *)

(** X12: the constructor exits exactly when the mutex, the condition
    variable or the thread could not be created.  Otherwise it yields an
    object with [done] clear, the mutex free, the context and the timeout
    it was given, and [_attached] set exactly when the detach failed; and
    it reports through [perror] exactly when one of its four calls
    failed. *)
Theorem construct_outcome (ce : ctor_env) (context T : Z) :
  (fst (construct ce context T) = None <->
     mutex_init_rc ce <> 0 \/ cond_init_rc ce <> 0 \/ create_ret ce <> 0)
  /\ (forall w, fst (construct ce context T) = Some w ->
        done w = false /\ _my_mutex w = Unlocked
        /\ get_context w = context /\ _timeout_microseconds w = T
        /\ (_attached w = true <-> detach_ret ce <> 0))
  /\ (snd (construct ce context T) = [] <->
        mutex_init_rc ce = 0 /\ cond_init_rc ce = 0 /\ create_ret ce = 0
        /\ detach_ret ce = 0).
Proof.
  unfold construct.
  destruct (Z.eqb_spec (mutex_init_rc ce) 0) as [Hm|Hm]; cbn [negb].
  2:{ split; [|split].
      - split; auto.
      - intros w H; discriminate H.
      - split; [discriminate | intros [H _]; contradiction]. }
  destruct (Z.eqb_spec (cond_init_rc ce) 0) as [Hc|Hc]; cbn [negb].
  2:{ split; [|split].
      - split; auto.
      - intros w H; discriminate H.
      - split; [discriminate | intros (_ & H & _); contradiction]. }
  destruct (Z.eqb_spec (create_ret ce) 0) as [Ht|Ht]; cbn [negb].
  2:{ split; [|split].
      - split; auto.
      - intros w H; discriminate H.
      - split; [discriminate | intros (_ & _ & H & _); contradiction]. }
  destruct (Z.eqb_spec (detach_ret ce) 0) as [Hd|Hd]; cbn [negb fst snd].
  - split; [|split].
    + split; [discriminate | intros [H|[H|H]]; contradiction].
    + intros w H; inversion H; subst; cbn.
      repeat split; try discriminate. intros H'; contradiction.
    + split; auto.
  - split; [|split].
    + split; [discriminate | intros [H|[H|H]]; contradiction].
    + intros w H; inversion H; subst; cbn.
      repeat split; auto.
    + split; [discriminate | intros (_ & _ & _ & H); contradiction].
Qed.

(** ** Destroying a held mutex *)

(** X13: [wait] keeps the mutex on every way out of the timed wait but
    [EINVAL], and [stop_thread] does not release it either; so when the
    worker's last [wait] got past the test of [done] and its timed wait
    ended with any code other than [EINVAL], a destructor that runs to its
    end calls [pthread_mutex_destroy], as its last action, on a mutex that
    is still held. *)
Theorem destroy_finds_mutex_held
    (e : wait_env) (w : pthread_wrapper) (fuel : nat) (se : stop_env) :
  done w = false ->
  timedwait_rc e <> EINVAL ->
  result (destroy fuel se (object_after (wait e w))) = Returned ->
  last_event (trace (destroy fuel se (object_after (wait e w))))
  = Some EvMutexDestroy
  /\ _my_mutex (object_after (destroy fuel se (object_after (wait e w))))
     = Held.
Proof.
  intros Hd Hrc.
  assert (Hw : object_after (wait e w) = with_mutex Held w).
  { unfold wait. rewrite (wait_during_not_done _ _ _ Hd). cbv zeta.
    unfold wait_resume. apply Z.eqb_neq in Hrc. rewrite Hrc.
    case_ifs; reflexivity. }
  rewrite Hw. unfold destroy.
  pose proof (stop_thread_object fuel se (with_mutex Held w)) as Ho.
  destruct (stop_thread fuel se (with_mutex Held w)) as [[c w'] tr].
  cbn in Ho. subst w'.
  destruct c; cbn; [|discriminate]. intros _. split; [|reflexivity].
  apply last_event_app. discriminate.
Qed.

Lemma destroy_finds_mutex_held_witness :
  last_event
    (trace (destroy 5 (stops_at 3 0)
              (object_after (wait (at_time 1700000000 5 ETIMEDOUT)
                                  (detached_object 10000)))))
  = Some EvMutexDestroy
  /\ _my_mutex
       (object_after
          (destroy 5 (stops_at 3 0)
             (object_after (wait (at_time 1700000000 5 ETIMEDOUT)
                                 (detached_object 10000))))) = Held.
Proof.
  apply (destroy_finds_mutex_held (at_time 1700000000 5 ETIMEDOUT)
           (detached_object 10000) 5 (stops_at 3 0));
    [reflexivity | discriminate | reflexivity].
Defined.
